(** * Attribute mapping list item: a shallow embedding

    A model of the component [AttributeMappingListItem] of
    [attribute-mapping-list-item.tsx]: its React state, the two effects that
    seed it, the validator of the external attribute field, the form
    submission handler and the [disabled] expression of the submit button.

    JavaScript values are modelled as far as the component inspects them:
    [undefined], [null] and strings, a string being its sequence of UTF-16
    code units. *)

From Stdlib Require Import ZArith NArith Ascii String List Bool Lia.
From stdpp Require Import base decidable countable gmap strings list.

Local Open Scope list_scope.

(** ** JavaScript values *)

Module Js.

(** A string value is the list of its UTF-16 code units. *)
Definition jsstring : Type := list N.

Inductive value : Type :=
| Undefined
| Null
| Str (s : jsstring).

#[global] Instance value_eq_dec : EqDecision value.
Proof. solve_decision. Defined.

Definition value_to_sum (v : value) : unit + (unit + jsstring) :=
  match v with
  | Undefined => inl tt
  | Null => inr (inl tt)
  | Str s => inr (inr s)
  end.

Definition value_of_sum (x : unit + (unit + jsstring)) : value :=
  match x with
  | inl _ => Undefined
  | inr (inl _) => Null
  | inr (inr s) => Str s
  end.

#[global] Instance value_countable : Countable value.
Proof.
  apply (inj_countable' value_to_sum value_of_sum).
  intros [| |s]; reflexivity.
Defined.

(** A string literal of the source, as code units (ASCII only). *)
Definition lit (s : string) : jsstring :=
  map N_of_ascii (list_ascii_of_string s).

(** [ToBoolean]: [undefined], [null] and the empty string are falsy. *)
Definition truthy (v : value) : bool :=
  match v with
  | Undefined | Null => false
  | Str [] => false
  | Str (_ :: _) => true
  end.

(** [a === b] on the values above; also [SameValueZero], which [Set] uses. *)
Definition strict_eq (a b : value) : bool := bool_decide (a = b).

(** An optional boolean ([editingMode?: boolean], [useState<boolean>()]). *)
Definition truthy_flag (b : option bool) : bool :=
  match b with
  | Some true => true
  | _ => false
  end.

(** The code units that [String.prototype.trim] strips: ECMAScript's
    WhiteSpace and LineTerminator productions. *)
Definition is_white_space (c : N) : bool :=
  (   (c =? 0x0009) || (c =? 0x000A) || (c =? 0x000B) || (c =? 0x000C)
   || (c =? 0x000D) || (c =? 0x0020) || (c =? 0x00A0) || (c =? 0x1680)
   || ((0x2000 <=? c) && (c <=? 0x200A))
   || (c =? 0x2028) || (c =? 0x2029) || (c =? 0x202F) || (c =? 0x205F)
   || (c =? 0x3000) || (c =? 0xFEFF))%N.

Fixpoint trimStart (s : jsstring) : jsstring :=
  match s with
  | [] => []
  | c :: s' => if is_white_space c then trimStart s' else s
  end.

Definition trimEnd (s : jsstring) : jsstring := rev (trimStart (rev s)).

Definition trim (s : jsstring) : jsstring := trimEnd (trimStart s).

(** [toBits] of the source. *)
Definition toBits (b : bool) : Z := if b then 1%Z else 0%Z.

(** [ToBoolean] of a number: zero is falsy. *)
Definition truthy_number (n : Z) : bool := negb (n =? 0)%Z.

(** ASCII letter case, used to compare strings up to case. *)
Definition to_lower_unit (c : N) : N :=
  if ((0x41 <=? c) && (c <=? 0x5A))%N then (c + 0x20)%N else c.

Definition to_lower (s : jsstring) : jsstring := map to_lower_unit s.

End Js.

(** ** Data model *)

(** [IDVPLocalClaimInterface]: the members the component reads. A member
    that is absent reads as [undefined]. *)
Record IDVPLocalClaimInterface : Type := {
  id : Js.value;
  uri : Js.value;
  displayName : Js.value
}.

(** [IDVPClaimMappingInterface]. The submission handler builds one with a
    type assertion, so [idvpClaim] holds whatever the form holds and
    [localClaim] may be [undefined] ([None]). *)
Record IDVPClaimMappingInterface : Type := {
  idvpClaim : Js.value;
  localClaim : option IDVPLocalClaimInterface
}.

(** [AttributeMappingListItemProps]. The callback [onSubmit] is modelled by
    the log of its calls, see [World]. [availableAttributeList] is [None]
    when the caller passes a nullish value, which the effect guards against. *)
Record AttributeMappingListItemProps : Type := {
  availableAttributeList : option (list IDVPLocalClaimInterface);
  alreadyMappedAttributesList : list IDVPClaimMappingInterface;
  editingMode : option bool;
  mapping : option IDVPClaimMappingInterface
}.

(** The four [useState] cells of the component. *)
Record ComponentState : Type := {
  copyOfAttrs : list IDVPLocalClaimInterface;
  mappedInputValue : Js.value;
  selectedLocalAttributeInputValue : Js.value;
  mappingHasError : option bool
}.

(** The flags of a form field that [resetFieldState] restores. *)
Record FieldState : Type := {
  active : bool;
  modified : bool;
  touched : bool;
  valid : bool;
  validating : bool;
  visited : bool
}.

(** The part of the form ([FormApi]) that the handler acts on: the values
    object and the state of each field, both keyed by field name. *)
Record FormState : Type := {
  values : gmap string Js.value;
  fields : gmap string FieldState
}.

(** What a handler of the component can read and change: its own state, the
    form, and the mappings handed to [onSubmit] so far (oldest first). *)
Record World : Type := {
  component : ComponentState;
  form : FormState;
  submitted : list IDVPClaimMappingInterface
}.

(** Modelled from the spec: the string values of
    [FieldConstants.FIELD_REQUIRED_ERROR] and
    [FieldConstants.INVALID_RESOURCE_ERROR] are declared in the form module,
    which this file only imports. Following the error taxonomy of the
    specification they are two distinct reasons, kept symbolic; the third
    error carries the message that the validator itself writes out. *)
Inductive FieldError : Type :=
| FIELD_REQUIRED_ERROR
| INVALID_RESOURCE_ERROR
| Message (text : string).

(** ** A state monad for handlers *)

Definition M (A : Type) : Type := World -> A * World.

#[global] Instance M_ret : MRet M := fun A a w => (a, w).

#[global] Instance M_bind : MBind M :=
  fun A B k m w => let (a, w') := m w in k a w'.

Definition when (c : bool) (m : M unit) : M unit :=
  if c then m else mret tt.

Definition exec {A : Type} (m : M A) (w : World) : World := snd (m w).

Definition modify_component (f : ComponentState -> ComponentState) : M unit :=
  fun w => (tt, {| component := f (component w);
                   form := form w;
                   submitted := submitted w |}).

Definition modify_form (f : FormState -> FormState) : M unit :=
  fun w => (tt, {| component := component w;
                   form := f (form w);
                   submitted := submitted w |}).

(** *** State setters *)

Definition setCopyOfAttrs (l : list IDVPLocalClaimInterface) : M unit :=
  modify_component (fun c =>
    {| copyOfAttrs := l;
       mappedInputValue := mappedInputValue c;
       selectedLocalAttributeInputValue := selectedLocalAttributeInputValue c;
       mappingHasError := mappingHasError c |}).

Definition setMappedInputValue (v : Js.value) : M unit :=
  modify_component (fun c =>
    {| copyOfAttrs := copyOfAttrs c;
       mappedInputValue := v;
       selectedLocalAttributeInputValue := selectedLocalAttributeInputValue c;
       mappingHasError := mappingHasError c |}).

Definition setSelectedLocalAttributeInputValue (v : Js.value) : M unit :=
  modify_component (fun c =>
    {| copyOfAttrs := copyOfAttrs c;
       mappedInputValue := mappedInputValue c;
       selectedLocalAttributeInputValue := v;
       mappingHasError := mappingHasError c |}).

Definition setMappingHasError (b : bool) : M unit :=
  modify_component (fun c =>
    {| copyOfAttrs := copyOfAttrs c;
       mappedInputValue := mappedInputValue c;
       selectedLocalAttributeInputValue := selectedLocalAttributeInputValue c;
       mappingHasError := Some b |}).

(** *** The caller's callback and the form *)

Definition onSubmit (m : IDVPClaimMappingInterface) : M unit :=
  fun w => (tt, {| component := component w;
                   form := form w;
                   submitted := submitted w ++ [m] |}).

(** Reading a member of a values object: an absent member is [undefined]. *)
Definition member (o : gmap string Js.value) (name : string) : Js.value :=
  default Js.Undefined (o !! name).

Definition mark_modified (f : FieldState) : FieldState :=
  {| active := active f; modified := true; touched := touched f;
     valid := valid f; validating := validating f; visited := visited f |}.

Definition pristine : FieldState :=
  {| active := false; modified := false; touched := false;
     valid := true; validating := false; visited := false |}.

(** [form.change(name, value)]: a value that differs from the current one is
    stored, and a registered field becomes modified. *)
Definition FormApi_change (name : string) (v : Js.value) (f : FormState)
  : FormState :=
  if Js.strict_eq (member (values f) name) v then f
  else {| values := <[name := v]> (values f);
          fields := alter mark_modified name (fields f) |}.

(** [form.resetFieldState(name)]: the flags of the field return to their
    initial state; the value of the field is not touched. *)
Definition FormApi_resetFieldState (name : string) (f : FormState)
  : FormState :=
  {| values := values f;
     fields := <[name := pristine]> (fields f) |}.

Definition form_change (name : string) (v : Js.value) : M unit :=
  modify_form (FormApi_change name v).

Definition form_resetFieldState (name : string) : M unit :=
  modify_form (FormApi_resetFieldState name).

(** ** The component *)

#[global] Instance IDVPLocalClaimInterface_eq_dec :
  EqDecision IDVPLocalClaimInterface.
Proof. solve_decision. Defined.

(** [mapping?.idvpClaim] *)
Definition mapping_idvpClaim (m : option IDVPClaimMappingInterface) : Js.value :=
  match m with
  | Some m => idvpClaim m
  | None => Js.Undefined
  end.

(** [mapping?.localClaim] *)
Definition mapping_localClaim (m : option IDVPClaimMappingInterface)
  : option IDVPLocalClaimInterface :=
  match m with
  | Some m => localClaim m
  | None => None
  end.

(** [mapping?.localClaim?.id] *)
Definition mapping_localClaim_opt_id (m : option IDVPClaimMappingInterface)
  : Js.value :=
  match mapping_localClaim m with
  | Some c => id c
  | None => Js.Undefined
  end.

(** [mapping?.localClaim.id]: the chain stops at a nullish [mapping] only, so
    a mapping without [localClaim] raises a TypeError ([None]). *)
Definition mapping_localClaim_id (m : option IDVPClaimMappingInterface)
  : option Js.value :=
  match m with
  | None => Some Js.Undefined
  | Some m =>
      match localClaim m with
      | Some c => Some (id c)
      | None => None
      end
  end.

Definition get_component : M ComponentState := fun w => (component w, w).

(** The state of a component that has not run any effect yet. *)
Definition initial_component : ComponentState :=
  {| copyOfAttrs := [];
     mappedInputValue := Js.Undefined;
     selectedLocalAttributeInputValue := Js.Undefined;
     mappingHasError := None |}.

(** The form as [<Form initialValues=...>] creates it, with the two fields
    registered. *)
Definition initial_form (props : AttributeMappingListItemProps) : FormState :=
  {| values :=
       match mapping props with
       | Some _ =>
           <["localClaimId" := mapping_localClaim_opt_id (mapping props)]>
             (<["mappedValue" := mapping_idvpClaim (mapping props)]> ∅)
       | None => ∅
       end;
     fields := <["localClaimId" := pristine]> (<["mappedValue" := pristine]> ∅) |}.

Definition initial_world (props : AttributeMappingListItemProps) : World :=
  {| component := initial_component;
     form := initial_form props;
     submitted := [] |}.

(** The first effect (dependencies [[]]): runs once, after the first render. *)
Definition useEffect_mount (props : AttributeMappingListItemProps)
  : World -> option World :=
  fun w =>
    if Js.truthy_flag (editingMode props) then
      match mapping_localClaim_id (mapping props) with
      | Some i =>
          Some (exec (setMappedInputValue (mapping_idvpClaim (mapping props)) ;;
                      setSelectedLocalAttributeInputValue i) w)
      | None => None
      end
    else Some w.

(** The list that the second effect stores. *)
Definition derive_copy (props : AttributeMappingListItemProps)
    (available : list IDVPLocalClaimInterface) : list IDVPLocalClaimInterface :=
  let copy := available in
  match mapping_localClaim (mapping props) with
  | Some c =>
      if Js.truthy_flag (editingMode props)
         && Js.truthy (mapping_idvpClaim (mapping props))
      then copy ++ [c]
      else copy
  | None => copy
  end.

(** The second effect (dependencies [[ availableAttributeList ]]). *)
Definition useEffect_availableAttributeList
    (props : AttributeMappingListItemProps) : M unit :=
  match availableAttributeList props with
  | Some available => setCopyOfAttrs (derive_copy props available)
  | None => mret tt
  end.

(** An option of the dropdown. *)
Record DropdownOption : Type := {
  key : Js.value;
  text : Js.value;
  value : Js.value
}.

Definition getListOfAvailableAttributes (c : ComponentState)
  : list DropdownOption :=
  map (fun claim =>
         {| key := id claim; text := displayName claim; value := id claim |})
      (copyOfAttrs c).

(** The message of a value that is mapped already. *)
Definition ALREADY_MAPPED : FieldError :=
  Message "There's already a attribute mapped with this name.".

Section Validation.

(** [FormValidation.url] and [FormValidation.isValidResourceName]: the two
    format checks of the validation module, which this file only imports. *)
Variable url : Js.jsstring -> bool.
Variable isValidResourceName : Js.jsstring -> bool.

(** The [validation] property of the [mappedValue] input. *)
Definition validation (props : AttributeMappingListItemProps)
    (value : Js.value) : M (option FieldError) :=
  match value with
  | Js.Str s =>
      if negb (Js.truthy value) || negb (Js.truthy (Js.Str (Js.trim s))) then
        setMappingHasError true ;;
        mret (Some FIELD_REQUIRED_ERROR)
      else if Js.truthy_number
                (Z.land (Js.toBits (negb (url s)))
                        (Js.toBits (negb (isValidResourceName s)))) then
        setMappingHasError true ;;
        mret (Some INVALID_RESOURCE_ERROR)
      else
        let mappedValues : gset Js.value :=
          list_to_set (map idvpClaim (alreadyMappedAttributesList props)) in
        if bool_decide (value ∈ mappedValues) then
          if Js.truthy_flag (editingMode props)
             && Js.strict_eq (mapping_idvpClaim (mapping props)) value then
            setMappingHasError false ;;
            mret None
          else
            setMappingHasError true ;;
            mret (Some ALREADY_MAPPED)
        else
          setMappingHasError false ;;
          mret None
  | Js.Undefined | Js.Null =>
      (* [!value] holds; [value.trim()] is not evaluated *)
      setMappingHasError true ;;
      mret (Some FIELD_REQUIRED_ERROR)
  end.

End Validation.

(** The form submission handler. *)
Definition onFormSub (props : AttributeMappingListItemProps)
    (vals : gmap string Js.value) : M unit :=
  c ← get_component;
  let newAttributeMapping : IDVPClaimMappingInterface :=
    {| idvpClaim := member vals "mappedValue";
       localClaim :=
         find (fun claim => Js.strict_eq (id claim) (member vals "localClaimId"))
              (copyOfAttrs c) |} in
  onSubmit newAttributeMapping ;;
  when (negb (Js.truthy_flag (editingMode props)))
    (form_change "mappedValue" (Js.Str []) ;;
     form_change "localClaimId" (Js.Str []) ;;
     form_resetFieldState "mappedValue" ;;
     form_resetFieldState "localClaimId" ;;
     setMappedInputValue (Js.Str []) ;;
     setSelectedLocalAttributeInputValue (Js.Str [])).

(** The [disabled] property of the submit button; the same expression in
    both places where the button is rendered. *)
Definition submit_disabled (c : ComponentState) : bool :=
  Js.truthy_flag (mappingHasError c)
  || negb (Js.truthy (mappedInputValue c))
  || negb (Js.truthy (selectedLocalAttributeInputValue c)).

Record Button : Type := {
  buttonType : string;
  disabled : bool
}.

(** The submit buttons that a render produces. *)
Definition render_buttons (props : AttributeMappingListItemProps)
    (c : ComponentState) : list Button :=
  (if Js.truthy_flag (editingMode props)
   then [ {| buttonType := "secondary_btn"; disabled := submit_disabled c |} ]
   else [])
  ++
  (if negb (Js.truthy_flag (editingMode props))
   then [ {| buttonType := "primary_btn"; disabled := submit_disabled c |} ]
   else []).

(** ** Life cycle *)

(** What can happen to a mounted component. The form library decides when
    it validates, notifies and submits, so every order is allowed. A render
    comes with the new properties and with [fresh], which tells whether
    [availableAttributeList] is another value than at the previous render,
    as React compares a dependency ([Object.is]): an array that the caller
    changed in place has other contents and is not fresh. *)
Inductive Event : Type :=
| Validate (v : Js.value)
| ListenMappedValue (v : Js.value)
| ListenLocalClaimId (v : Js.value)
| FieldChanged (name : string) (v : Js.value)
| Submit
| Rerender (props' : AttributeMappingListItemProps) (fresh : bool).

Definition Config : Type := AttributeMappingListItemProps * World.

Section Lifecycle.

Variable url : Js.jsstring -> bool.
Variable isValidResourceName : Js.jsstring -> bool.

(** The first render followed by both effects. *)
Definition mount (props : AttributeMappingListItemProps) : option Config :=
  match useEffect_mount props (initial_world props) with
  | Some w => Some (props, exec (useEffect_availableAttributeList props) w)
  | None => None
  end.

(** One event. A render with new properties runs the second effect when the
    list it depends on is another value ([fresh]), whatever its contents. *)
Definition step (cfg : Config) (e : Event) : Config :=
  let (props, w) := cfg in
  match e with
  | Validate v => (props, exec (validation url isValidResourceName props v) w)
  | ListenMappedValue v => (props, exec (setMappedInputValue v) w)
  | ListenLocalClaimId v =>
      (props, exec (setSelectedLocalAttributeInputValue v) w)
  | FieldChanged name v => (props, exec (form_change name v) w)
  | Submit => (props, exec (onFormSub props (values (form w))) w)
  | Rerender props' fresh =>
      (props',
       if fresh
       then exec (useEffect_availableAttributeList props') w
       else w)
  end.

Inductive reachable : Config -> Prop :=
| reachable_mount props cfg :
    mount props = Some cfg -> reachable cfg
| reachable_step cfg e :
    reachable cfg -> reachable (step cfg e).

End Lifecycle.

(** ** Vocabulary of the specification *)

(** A string of white space only. *)
Definition whitespace_only (s : Js.jsstring) : bool :=
  forallb Js.is_white_space s.

(** A blank input: nothing at all, the empty string, or white space only. *)
Definition blank (v : Js.value) : bool :=
  match v with
  | Js.Undefined | Js.Null => true
  | Js.Str s => bool_decide (s = []) || whitespace_only s
  end.

(** An empty draft: nothing was entered or selected. *)
Definition empty_draft (v : Js.value) : Prop :=
  v = Js.Undefined \/ v = Js.Null \/ v = Js.Str [].

(** The mapping has an external value that is not empty. *)
Definition has_external_value (m : IDVPClaimMappingInterface) : Prop :=
  exists s, s <> [] /\ idvpClaim m = Js.Str s.

(** The editor edits a mapping whose stored external value is [v]. *)
Definition edits_unchanged (props : AttributeMappingListItemProps)
    (v : Js.value) : Prop :=
  editingMode props = Some true
  /\ exists m, mapping props = Some m /\ idvpClaim m = v.

(** The value is the external value of a mapping of the list. *)
Definition already_mapped (props : AttributeMappingListItemProps)
    (v : Js.value) : Prop :=
  exists m, m ∈ alreadyMappedAttributesList props /\ idvpClaim m = v.

#[global] Instance edits_unchanged_dec props v :
  Decision (edits_unchanged props v).
Proof.
  unfold edits_unchanged.
  destruct (mapping props) as [m|].
  - destruct (decide (editingMode props = Some true /\ idvpClaim m = v))
      as [[He Hv]|Hn].
    + left. split; [exact He|]. exists m. auto.
    + right. intros [He (m' & Hm & Hv)].
      apply Hn. split; [exact He|]. congruence.
  - right. intros [_ (m & Hm & _)]. discriminate Hm.
Defined.

#[global] Instance already_mapped_dec props v :
  Decision (already_mapped props v).
Proof. unfold already_mapped. apply list_exist_dec. intros m. apply _. Defined.

(** Two strings that are not the same but agree once surrounding white space
    is stripped and letters are lowered. *)
Definition differs_only_by_space_or_case (a b : Js.jsstring) : Prop :=
  a <> b /\ Js.to_lower (Js.trim a) = Js.to_lower (Js.trim b).

(** The world after [setMappingHasError b]. *)
Definition with_error (b : bool) (w : World) : World :=
  exec (setMappingHasError b) w.

(** A sample format check for examples: ASCII letters only, at least one. *)
Definition is_letter (c : N) : bool :=
  ((0x41 <=? c) && (c <=? 0x5A) || (0x61 <=? c) && (c <=? 0x7A))%N.

Definition letters_only (s : Js.jsstring) : bool :=
  negb (bool_decide (s = [])) && forallb is_letter s.

(** A sample check that accepts strings with a colon after a first letter,
    such as [urn:x]. *)
Definition has_scheme (s : Js.jsstring) : bool :=
  match s with
  | c :: rest => is_letter c && existsb (N.eqb 0x3A) rest
  | [] => false
  end.

(** ** The handler, step by step *)

(** The mapping that the handler builds. *)
Definition newAttributeMapping (vals : gmap string Js.value) (w : World)
  : IDVPClaimMappingInterface :=
  {| idvpClaim := member vals "mappedValue";
     localClaim :=
       find (fun claim => Js.strict_eq (id claim) (member vals "localClaimId"))
            (copyOfAttrs (component w)) |}.

(** The form after the four calls that the handler makes on it. *)
Definition form_after_reset (f : FormState) : FormState :=
  FormApi_resetFieldState "localClaimId"
    (FormApi_resetFieldState "mappedValue"
       (FormApi_change "localClaimId" (Js.Str [])
          (FormApi_change "mappedValue" (Js.Str []) f))).

(** ** Sample data *)

Definition attr_a1 : IDVPLocalClaimInterface :=
  {| id := Js.Str (Js.lit "a1");
     uri := Js.Str (Js.lit "urn:x");
     displayName := Js.Str (Js.lit "First name") |}.

Definition attr_a2 : IDVPLocalClaimInterface :=
  {| id := Js.Str (Js.lit "a2");
     uri := Js.Str (Js.lit "urn:z");
     displayName := Js.Str (Js.lit "Email") |}.

Definition mapping_mail : IDVPClaimMappingInterface :=
  {| idvpClaim := Js.Str (Js.lit "mail"); localClaim := Some attr_a2 |}.

Definition mapping_Mail : IDVPClaimMappingInterface :=
  {| idvpClaim := Js.Str (Js.lit "Mail"); localClaim := Some attr_a1 |}.

(** A fresh editor: [a1] can be picked, [mail] is mapped already. *)
Definition props_add : AttributeMappingListItemProps :=
  {| availableAttributeList := Some [attr_a1];
     alreadyMappedAttributesList := [mapping_mail];
     editingMode := None;
     mapping := None |}.

(** An editor opened on the mapping of [mail]. *)
Definition props_edit : AttributeMappingListItemProps :=
  {| availableAttributeList := Some [attr_a1];
     alreadyMappedAttributesList := [mapping_mail];
     editingMode := Some true;
     mapping := Some mapping_mail |}.

(** A list with two mappings whose external values differ by case only. *)
Definition props_two_cases : AttributeMappingListItemProps :=
  {| availableAttributeList := Some [];
     alreadyMappedAttributesList := [mapping_mail; mapping_Mail];
     editingMode := None;
     mapping := None |}.

(** The available list [[a2]] replaces [[a1]] while [mail], mapped to [a2],
    is edited. *)
Definition props_edit_next : AttributeMappingListItemProps :=
  {| availableAttributeList := Some [attr_a2];
     alreadyMappedAttributesList := [mapping_mail];
     editingMode := Some true;
     mapping := Some mapping_mail |}.

(** The values that the form submits in the sample: [urn:y] mapped to [a1]. *)
Definition sample_values : gmap string Js.value :=
  <["localClaimId" := Js.Str (Js.lit "a1")]>
    (<["mappedValue" := Js.Str (Js.lit "urn:y")]> ∅).

(** The same draft with a selection that no attribute carries. *)
Definition sample_values_unmatched : gmap string Js.value :=
  <["localClaimId" := Js.Str (Js.lit "zz")]>
    (<["mappedValue" := Js.Str (Js.lit "urn:y")]> ∅).

(** A mounted fresh editor whose candidate list holds [a2] and [a1]. *)
Definition sample_world : World :=
  exec (setCopyOfAttrs [attr_a2; attr_a1]) (initial_world props_add).

(** A fresh editor in which both fields are filled and the last validation
    failed. *)
Definition sample_invalid : Config :=
  step has_scheme letters_only
    (step has_scheme letters_only
       (step has_scheme letters_only
          (props_add, exec (useEffect_availableAttributeList props_add)
                        (initial_world props_add))
          (ListenMappedValue (Js.Str (Js.lit "given name"))))
       (ListenLocalClaimId (Js.Str (Js.lit "a1"))))
    (Validate (Js.Str (Js.lit "given name"))).

(** An editor with [a1] available and nothing mapped yet. *)
Definition props_first : AttributeMappingListItemProps :=
  {| availableAttributeList := Some [attr_a1];
     alreadyMappedAttributesList := [];
     editingMode := None;
     mapping := None |}.

(** The user types [urn:y], picks [a1] and submits. *)
Definition session : list Event :=
  [ FieldChanged "mappedValue" (Js.Str (Js.lit "urn:y"));
    ListenMappedValue (Js.Str (Js.lit "urn:y"));
    Validate (Js.Str (Js.lit "urn:y"));
    FieldChanged "localClaimId" (Js.Str (Js.lit "a1"));
    ListenLocalClaimId (Js.Str (Js.lit "a1"));
    Submit ].

Definition run (cfg : Config) (events : list Event) : Config :=
  fold_left (step has_scheme letters_only) events cfg.

(** ** The rendered grid *)

(** What a column of the grid holds. A label is [None] when the property is
    [false] ([!editingMode && "..."] in editing mode); the preselected value
    of the dropdown is [None] when [editingMode && ...] stops at a falsy
    [editingMode]. *)
Inductive Widget : Type :=
| FieldInput (name : string) (label : option string)
| FieldDropdown (name : string) (label : option string)
    (preselected : option Js.value) (options : list DropdownOption)
| FieldButton (button : Button).

Record GridColumn : Type := {
  width : nat;
  child : Widget
}.

Record GridRow : Type := {
  columns : nat;
  cells : list GridColumn
}.

(** The [<Grid>] that the component returns. *)
Definition render (props : AttributeMappingListItemProps)
    (c : ComponentState) : list GridRow :=
  let editing := Js.truthy_flag (editingMode props) in
  [ {| columns := if editing then 3 else 2;
       cells :=
         [ {| width := if editing then 7 else 8;
              child :=
                FieldInput "mappedValue"
                  (if negb editing then Some "External IdP Attribute"
                   else None) |};
           {| width := if editing then 7 else 8;
              child :=
                FieldDropdown "localClaimId"
                  (if negb editing then Some "Maps to" else None)
                  (if editing
                   then Some (mapping_localClaim_opt_id (mapping props))
                   else None)
                  (getListOfAvailableAttributes c) |} ]
         ++ (if editing
             then [ {| width := 1;
                       child :=
                         FieldButton
                           {| buttonType := "secondary_btn";
                              disabled := submit_disabled c |} |} ]
             else []) |} ]
  ++ (if negb (Js.truthy_flag (editingMode props))
      then [ {| columns := 1;
                cells :=
                  [ {| width := 16;
                       child :=
                         FieldButton
                           {| buttonType := "primary_btn";
                              disabled := submit_disabled c |} |} ] |} ]
      else []).

(** The submit buttons of a grid, in document order. *)
Definition buttons_of (rows : list GridRow) : list Button :=
  flat_map (fun row =>
              flat_map (fun col =>
                          match child col with
                          | FieldButton b => [b]
                          | _ => []
                          end)
                       (cells row))
           rows.

(** The widths of the columns of a row, added up. *)
Definition row_width (row : GridRow) : nat :=
  fold_right Nat.add 0 (map width (cells row)).

(** ** Runs of events *)

Definition run_events (url isValidResourceName : Js.jsstring -> bool)
    (cfg : Config) (events : list Event) : Config :=
  fold_left (step url isValidResourceName) events cfg.

Definition is_submit (e : Event) : bool :=
  match e with
  | Submit => true
  | _ => false
  end.

(** The verdict on a value: what the validator returns for it. The state of
    the component does not enter, see [validation_verdict]. *)
Definition verdict (url isValidResourceName : Js.jsstring -> bool)
    (props : AttributeMappingListItemProps) (v : Js.value)
  : option FieldError :=
  fst (validation url isValidResourceName props v (initial_world props)).

(** A mapping taken from an editor that found no local attribute. *)
Definition mapping_orphan : IDVPClaimMappingInterface :=
  {| idvpClaim := Js.Str (Js.lit "mail"); localClaim := None |}.

Definition props_edit_orphan : AttributeMappingListItemProps :=
  {| availableAttributeList := Some [attr_a1];
     alreadyMappedAttributesList := [mapping_orphan];
     editingMode := Some true;
     mapping := Some mapping_orphan |}.

(** An editor opened on [mail] while its attribute [a2] is, against the
    caller's contract, still in the available list. *)
Definition props_edit_twice : AttributeMappingListItemProps :=
  {| availableAttributeList := Some [attr_a2; attr_a1];
     alreadyMappedAttributesList := [mapping_mail];
     editingMode := Some true;
     mapping := Some mapping_mail |}.

(** The sample editors, mounted. *)
Definition mounted_add : Config :=
  default (props_add, initial_world props_add) (mount props_add).

Definition mounted_edit : Config :=
  default (props_edit, initial_world props_edit) (mount props_edit).

(** ** Strings *)

Lemma trimStart_whitespace_only (s : Js.jsstring) :
  whitespace_only (Js.trimStart s) = whitespace_only s.
Proof.
  induction s as [|c s IH]; simpl; [reflexivity|].
  destruct (Js.is_white_space c) eqn:Hc; simpl.
  - exact IH.
  - rewrite Hc. reflexivity.
Qed.

Lemma trimStart_nil (s : Js.jsstring) :
  Js.trimStart s = [] <-> whitespace_only s = true.
Proof.
  induction s as [|c s IH]; simpl; [tauto|].
  destruct (Js.is_white_space c); simpl; [exact IH|].
  split; discriminate.
Qed.

Lemma whitespace_only_rev (s : Js.jsstring) :
  whitespace_only (rev s) = whitespace_only s.
Proof.
  unfold whitespace_only.
  induction s as [|c s IH]; simpl; [reflexivity|].
  rewrite forallb_app, IH. simpl.
  rewrite andb_true_r. apply andb_comm.
Qed.

Lemma trimEnd_nil (s : Js.jsstring) :
  Js.trimEnd s = [] <-> whitespace_only s = true.
Proof.
  unfold Js.trimEnd.
  rewrite <- whitespace_only_rev, <- trimStart_nil.
  split; intros H.
  - apply (f_equal (@rev N)) in H. rewrite rev_involutive in H. exact H.
  - rewrite H. reflexivity.
Qed.

Lemma trim_nil (s : Js.jsstring) :
  Js.trim s = [] <-> whitespace_only s = true.
Proof.
  unfold Js.trim. rewrite trimEnd_nil, trimStart_whitespace_only. tauto.
Qed.

(** The test [!value || !value.trim()] of the validator holds on blank
    values and on no other. *)
Lemma blank_test (s : Js.jsstring) :
  negb (Js.truthy (Js.Str s)) || negb (Js.truthy (Js.Str (Js.trim s)))
  = blank (Js.Str s).
Proof.
  unfold blank. destruct (whitespace_only s) eqn:Hw.
  - apply trim_nil in Hw. rewrite Hw. simpl.
    rewrite !orb_true_r. reflexivity.
  - assert (Ht : Js.trim s <> []) by (rewrite trim_nil; congruence).
    destruct s as [|c s]; [discriminate Hw|].
    destruct (Js.trim (c :: s)); [congruence|].
    rewrite bool_decide_eq_false_2 by discriminate. reflexivity.
Qed.

(** The bitwise conjunction of [toBits] is the conjunction. *)
Lemma toBits_land (a b : bool) :
  Js.truthy_number (Z.land (Js.toBits a) (Js.toBits b)) = a && b.
Proof. destruct a, b; reflexivity. Qed.

(** ** The validator *)

Section ValidationFacts.

Variable url : Js.jsstring -> bool.
Variable isValidResourceName : Js.jsstring -> bool.
Variable props : AttributeMappingListItemProps.

Abbreviation validate := (validation url isValidResourceName props).

Lemma mappedValues_has (v : Js.value) :
  v ∈ (list_to_set (map idvpClaim (alreadyMappedAttributesList props))
       : gset Js.value)
  <-> already_mapped props v.
Proof.
  rewrite elem_of_list_to_set, list_elem_of_In, in_map_iff.
  unfold already_mapped. split.
  - intros (m & Hv & Hin). exists m. rewrite list_elem_of_In. auto.
  - intros (m & Hin & Hv). exists m. rewrite <- list_elem_of_In. auto.
Qed.

Lemma edit_exception_test (v : Js.value) :
  Js.truthy v = true ->
  Js.truthy_flag (editingMode props)
  && Js.strict_eq (mapping_idvpClaim (mapping props)) v = true
  <-> edits_unchanged props v.
Proof.
  intros Hv. unfold edits_unchanged, Js.strict_eq.
  rewrite andb_true_iff, bool_decide_eq_true. split.
  - intros [He Hm]. split.
    + destruct (editingMode props) as [[|]|]; simpl in He; congruence.
    + destruct (mapping props) as [m|]; simpl in Hm.
      * exists m. auto.
      * subst v. discriminate Hv.
  - intros [He (m & Hm & Hi)]. rewrite He, Hm. simpl. auto.
Qed.

Lemma validation_blank (v : Js.value) (w : World) :
  blank v = true ->
  validate v w = (Some FIELD_REQUIRED_ERROR, with_error true w).
Proof.
  intros Hb. destruct v as [| |s]; try reflexivity.
  unfold validation. rewrite blank_test, Hb. reflexivity.
Qed.

(** The three remaining branches, for an input that is not blank. *)
Lemma validation_not_blank (s : Js.jsstring) (w : World) :
  blank (Js.Str s) = false ->
  validate (Js.Str s) w =
    if negb (url s) && negb (isValidResourceName s) then
      (Some INVALID_RESOURCE_ERROR, with_error true w)
    else if bool_decide (already_mapped props (Js.Str s)) then
      if bool_decide (edits_unchanged props (Js.Str s))
      then (None, with_error false w)
      else (Some ALREADY_MAPPED, with_error true w)
    else (None, with_error false w).
Proof.
  intros Hb. unfold validation.
  rewrite blank_test, Hb, toBits_land.
  destruct (negb (url s) && negb (isValidResourceName s)); [reflexivity|].
  rewrite (bool_decide_ext _ _ (mappedValues_has (Js.Str s))).
  destruct (bool_decide (already_mapped props (Js.Str s))); [|reflexivity].
  assert (Ht : Js.truthy (Js.Str s) = true).
  { destruct s; [discriminate Hb | reflexivity]. }
  destruct (bool_decide (edits_unchanged props (Js.Str s))) eqn:He.
  - apply bool_decide_eq_true in He.
    apply (edit_exception_test _ Ht) in He. rewrite He. reflexivity.
  - apply bool_decide_eq_false in He.
    destruct (Js.truthy_flag (editingMode props)
              && Js.strict_eq (mapping_idvpClaim (mapping props)) (Js.Str s))
      eqn:Hc; [|reflexivity].
    apply (edit_exception_test _ Ht) in Hc. contradiction.
Qed.

End ValidationFacts.

(** ** Results on the validator *)

(** C1: an input string that is not blank, that one of the two format checks
    accepts, and that is the external value of no mapping of the list, passes:
    the validator returns no error and sets the error flag to [false]. *)
Theorem validation_accepts
    (url isValidResourceName : Js.jsstring -> bool)
    (props : AttributeMappingListItemProps) (s : Js.jsstring) (w : World) :
  blank (Js.Str s) = false ->
  url s = true \/ isValidResourceName s = true ->
  ~ already_mapped props (Js.Str s) ->
  validation url isValidResourceName props (Js.Str s) w
    = (None, with_error false w)
  /\ mappingHasError (component (with_error false w)) = Some false.
Proof.
  intros Hb Hf Hm. split; [|reflexivity].
  rewrite validation_not_blank by exact Hb.
  replace (negb (url s) && negb (isValidResourceName s)) with false
    by (destruct Hf as [-> | ->]; simpl; rewrite ?andb_false_r; reflexivity).
  rewrite bool_decide_eq_false_2 by exact Hm. reflexivity.
Qed.

Lemma validation_accepts_witness :
  validation has_scheme letters_only props_add (Js.Str (Js.lit "urn:y"))
    (initial_world props_add)
  = (None, with_error false (initial_world props_add))
  /\ mappingHasError
       (component (with_error false (initial_world props_add))) = Some false.
Proof.
  apply (validation_accepts has_scheme letters_only props_add (Js.lit "urn:y")).
  - reflexivity.
  - left. reflexivity.
  - apply (bool_decide_eq_false_1 _). vm_compute. reflexivity.
Defined.

(** C2: a blank input ([undefined], [null], the empty string or white space
    only) gets the required-field error and sets the error flag to [true],
    whatever the mapped list, the editing mode and the edited mapping are,
    and whatever the format checks and the duplicate check would say. *)
Theorem validation_required
    (url isValidResourceName : Js.jsstring -> bool)
    (props : AttributeMappingListItemProps) (v : Js.value) (w : World) :
  blank v = true ->
  validation url isValidResourceName props v w
    = (Some FIELD_REQUIRED_ERROR, with_error true w)
  /\ mappingHasError (component (with_error true w)) = Some true.
Proof.
  intros Hb. split; [|reflexivity]. apply validation_blank. exact Hb.
Qed.

Lemma validation_required_witness :
  validation has_scheme letters_only props_edit
    (Js.Str [0x20; 0x09; 0x3000]%N) (initial_world props_edit)
  = (Some FIELD_REQUIRED_ERROR, with_error true (initial_world props_edit))
  /\ mappingHasError
       (component (with_error true (initial_world props_edit))) = Some true.
Proof.
  apply (validation_required has_scheme letters_only props_edit).
  reflexivity.
Defined.

(** C3: for an input that is not blank, the validator returns the
    invalid-format error exactly when the input fails both format checks; an
    input that one of the two accepts never gets that error. *)
Theorem validation_invalid_format
    (url isValidResourceName : Js.jsstring -> bool)
    (props : AttributeMappingListItemProps) (s : Js.jsstring) (w : World) :
  blank (Js.Str s) = false ->
  (fst (validation url isValidResourceName props (Js.Str s) w)
     = Some INVALID_RESOURCE_ERROR
   <-> url s = false /\ isValidResourceName s = false)
  /\ (url s = true \/ isValidResourceName s = true ->
      fst (validation url isValidResourceName props (Js.Str s) w)
        <> Some INVALID_RESOURCE_ERROR).
Proof.
  intros Hb.
  assert (Hiff :
    fst (validation url isValidResourceName props (Js.Str s) w)
      = Some INVALID_RESOURCE_ERROR
    <-> url s = false /\ isValidResourceName s = false).
  { rewrite validation_not_blank by exact Hb.
    destruct (url s), (isValidResourceName s); simpl;
      repeat case_bool_decide; simpl;
      split; try tauto; try discriminate; intros [? ?]; discriminate. }
  split; [exact Hiff|].
  intros Hf Hr. apply Hiff in Hr as [Hu Hn].
  destruct Hf; congruence.
Qed.

Lemma validation_invalid_format_witness :
  (fst (validation has_scheme letters_only props_add
          (Js.Str (Js.lit "given name")) (initial_world props_add))
     = Some INVALID_RESOURCE_ERROR
   <-> has_scheme (Js.lit "given name") = false
       /\ letters_only (Js.lit "given name") = false)
  /\ (has_scheme (Js.lit "given name") = true
      \/ letters_only (Js.lit "given name") = true ->
      fst (validation has_scheme letters_only props_add
             (Js.Str (Js.lit "given name")) (initial_world props_add))
        <> Some INVALID_RESOURCE_ERROR).
Proof.
  apply (validation_invalid_format has_scheme letters_only props_add
           (Js.lit "given name")).
  reflexivity.
Defined.

(** C4: for an input that is not blank, that a format check accepts, and that
    is the external value of a mapping of the list: when the editor is in
    editing mode and the input is the stored external value of the edited
    mapping, the validator passes and sets the error flag to [false]; in
    every other case it returns the already-mapped error and sets the flag
    to [true]. *)
Theorem validation_duplicate
    (url isValidResourceName : Js.jsstring -> bool)
    (props : AttributeMappingListItemProps) (s : Js.jsstring) (w : World) :
  blank (Js.Str s) = false ->
  url s = true \/ isValidResourceName s = true ->
  already_mapped props (Js.Str s) ->
  (edits_unchanged props (Js.Str s) ->
   validation url isValidResourceName props (Js.Str s) w
     = (None, with_error false w)
   /\ mappingHasError (component (with_error false w)) = Some false)
  /\ (~ edits_unchanged props (Js.Str s) ->
      validation url isValidResourceName props (Js.Str s) w
        = (Some ALREADY_MAPPED, with_error true w)
      /\ mappingHasError (component (with_error true w)) = Some true).
Proof.
  intros Hb Hf Hm.
  rewrite validation_not_blank by exact Hb.
  replace (negb (url s) && negb (isValidResourceName s)) with false
    by (destruct Hf as [-> | ->]; simpl; rewrite ?andb_false_r; reflexivity).
  rewrite bool_decide_eq_true_2 by exact Hm.
  split; intros He.
  - rewrite bool_decide_eq_true_2 by exact He. split; reflexivity.
  - rewrite bool_decide_eq_false_2 by exact He. split; reflexivity.
Qed.

Lemma validation_duplicate_witness :
  validation has_scheme letters_only props_edit (Js.Str (Js.lit "mail"))
    (initial_world props_edit)
  = (None, with_error false (initial_world props_edit))
  /\ mappingHasError
       (component (with_error false (initial_world props_edit))) = Some false.
Proof.
  refine (proj1 (validation_duplicate has_scheme letters_only props_edit
                   (Js.lit "mail") (initial_world props_edit) _ _ _) _).
  - reflexivity.
  - right. reflexivity.
  - apply (bool_decide_eq_true_1 _). vm_compute. reflexivity.
  - apply (bool_decide_eq_true_1 _). vm_compute. reflexivity.
Defined.

(** The validator returns the already-mapped error exactly for an input that
    is not blank, that a format check accepts, and that is, as it stands, the
    external value of a mapping of the list, the unchanged value of the
    edited mapping apart. *)
Lemma validation_duplicate_iff
    (url isValidResourceName : Js.jsstring -> bool)
    (props : AttributeMappingListItemProps) (v : Js.value) (w : World) :
  fst (validation url isValidResourceName props v w) = Some ALREADY_MAPPED
  <-> blank v = false
      /\ (exists s, v = Js.Str s
                    /\ (url s = true \/ isValidResourceName s = true))
      /\ already_mapped props v
      /\ ~ edits_unchanged props v.
Proof.
  destruct (blank v) eqn:Hb.
  - rewrite validation_blank by exact Hb. simpl.
    split; [discriminate | intros [H _]; discriminate H].
  - destruct v as [| |s]; try discriminate Hb.
    rewrite validation_not_blank by exact Hb.
    destruct (url s) eqn:Hu, (isValidResourceName s) eqn:Hn; simpl;
      repeat case_bool_decide; simpl; split;
      try discriminate; try tauto;
      try (intros _; repeat split; eauto; fail);
      try (intros (_ & (s' & Hs & [Hs' | Hs']) & _); congruence).
Qed.

(** C10, as stated, fails: [Mail] differs from the mapped [mail] by letter
    case only, and still gets the already-mapped error, because [Mail] itself
    is mapped too. *)
Lemma duplicate_despite_case_difference :
  already_mapped props_two_cases (Js.Str (Js.lit "mail"))
  /\ differs_only_by_space_or_case (Js.lit "Mail") (Js.lit "mail")
  /\ fst (validation has_scheme letters_only props_two_cases
            (Js.Str (Js.lit "Mail")) (initial_world props_two_cases))
     = Some ALREADY_MAPPED.
Proof.
  split; [|split].
  - exists mapping_mail. split; [apply list_elem_of_here | reflexivity].
  - split; [discriminate | reflexivity].
  - vm_compute. reflexivity.
Qed.

(** C10 (amended): the duplicate check compares the input as it stands. An
    input that differs from the external value of a mapping of the list by
    surrounding white space or letter case only, and that is not itself the
    external value of a mapping of the list, does not get the already-mapped
    error. *)
Theorem duplicate_compares_raw_input
    (url isValidResourceName : Js.jsstring -> bool)
    (props : AttributeMappingListItemProps) (s e : Js.jsstring) (w : World) :
  already_mapped props (Js.Str e) ->
  differs_only_by_space_or_case s e ->
  ~ already_mapped props (Js.Str s) ->
  fst (validation url isValidResourceName props (Js.Str s) w)
    <> Some ALREADY_MAPPED.
Proof.
  intros _ _ Hs Hr.
  apply validation_duplicate_iff in Hr as (_ & _ & Hm & _).
  exact (Hs Hm).
Qed.

Lemma duplicate_compares_raw_input_witness :
  fst (validation has_scheme letters_only props_add
         (Js.Str (Js.lit "Mail")) (initial_world props_add))
    <> Some ALREADY_MAPPED
  /\ fst (validation has_scheme letters_only props_add
            (Js.Str (Js.lit "Mail")) (initial_world props_add))
     = None.
Proof.
  split; [|vm_compute; reflexivity].
  apply (duplicate_compares_raw_input has_scheme letters_only props_add
           (Js.lit "Mail") (Js.lit "mail")).
  - apply (bool_decide_eq_true_1 _). vm_compute. reflexivity.
  - split; [discriminate | reflexivity].
  - apply (bool_decide_eq_false_1 _). vm_compute. reflexivity.
Defined.

(** ** The candidate list *)

Lemma derive_copy_appends (props : AttributeMappingListItemProps)
    (A : list IDVPLocalClaimInterface)
    (m : IDVPClaimMappingInterface) (c : IDVPLocalClaimInterface) :
  editingMode props = Some true ->
  mapping props = Some m ->
  has_external_value m ->
  localClaim m = Some c ->
  derive_copy props A = A ++ [c].
Proof.
  intros He Hm (s & Hs & Hi) Hc. unfold derive_copy.
  rewrite Hm, He. simpl. rewrite Hc, Hi.
  destruct s; [contradiction | reflexivity].
Qed.

Lemma derive_copy_same (props : AttributeMappingListItemProps)
    (A : list IDVPLocalClaimInterface) :
  (editingMode props <> Some true
   \/ forall m, mapping props = Some m ->
                ~ has_external_value m \/ localClaim m = None) ->
  derive_copy props A = A.
Proof.
  intros H. unfold derive_copy.
  destruct (mapping props) as [m|] eqn:Hm; simpl; [|reflexivity].
  destruct (localClaim m) as [c|] eqn:Hc; [|reflexivity].
  destruct (editingMode props) as [[|]|] eqn:He; simpl; try reflexivity.
  destruct (idvpClaim m) as [| |[|u s]] eqn:Hi; simpl; try reflexivity.
  exfalso. destruct H as [H|H]; [congruence|].
  destruct (H m eq_refl) as [Hn|Hn]; [|congruence].
  apply Hn. exists (u :: s). split; [discriminate | exact Hi].
Qed.

(** C5: when a render brings another available list [A], the candidate list
    is derived again. It is [A] followed by the local attribute of the edited
    mapping, once, when the editor is in editing mode and that mapping has
    an external value that is not empty and a local attribute; it is [A]
    itself when the editor is not in editing mode or the mapping lacks one
    of the two. *)
Theorem candidate_list_derivation
    (url isValidResourceName : Js.jsstring -> bool)
    (props props' : AttributeMappingListItemProps)
    (A : list IDVPLocalClaimInterface) (w : World) :
  availableAttributeList props' = Some A ->
  let w' := snd (step url isValidResourceName (props, w)
                   (Rerender props' true)) in
  (forall m c,
     editingMode props' = Some true ->
     mapping props' = Some m ->
     has_external_value m ->
     localClaim m = Some c ->
     copyOfAttrs (component w') = A ++ [c])
  /\ (editingMode props' <> Some true
      \/ (forall m, mapping props' = Some m ->
                    ~ has_external_value m \/ localClaim m = None) ->
      copyOfAttrs (component w') = A).
Proof.
  intros HA w'.
  assert (Hw : copyOfAttrs (component w') = derive_copy props' A).
  { subst w'. simpl.
    unfold useEffect_availableAttributeList. rewrite HA. reflexivity. }
  split.
  - intros m c He Hm Hx Hc. rewrite Hw.
    exact (derive_copy_appends props' A m c He Hm Hx Hc).
  - intros H. rewrite Hw. exact (derive_copy_same props' A H).
Qed.

(** The same derivation takes place when the component is mounted. *)
Lemma mount_candidate_list (props : AttributeMappingListItemProps)
    (A : list IDVPLocalClaimInterface) (cfg : Config) :
  availableAttributeList props = Some A ->
  mount props = Some cfg ->
  copyOfAttrs (component (snd cfg)) = derive_copy props A.
Proof.
  intros HA Hm. unfold mount in Hm.
  destruct (useEffect_mount props (initial_world props)) as [w|];
    [|discriminate Hm].
  injection Hm as <-. simpl.
  unfold useEffect_availableAttributeList. rewrite HA. reflexivity.
Qed.

Lemma candidate_list_derivation_witness :
  copyOfAttrs
    (component
       (snd (step has_scheme letters_only
               (props_edit, snd mounted_edit)
               (Rerender props_edit_next true))))
  = [attr_a2; attr_a2].
Proof.
  refine (proj1 (candidate_list_derivation has_scheme letters_only
                   props_edit props_edit_next [attr_a2]
                   (snd mounted_edit) _)
            mapping_mail attr_a2 _ _ _ _).
  - reflexivity.
  - reflexivity.
  - reflexivity.
  - exists (Js.lit "mail"). split; [discriminate | reflexivity].
  - reflexivity.
Defined.

(** ** Submission *)

(** [Array.prototype.find]: the first element that satisfies the test. *)
Lemma find_first {A : Type} (f : A -> bool) (l1 l2 : list A) (x : A) :
  (forall y, y ∈ l1 -> f y = false) ->
  f x = true ->
  find f (l1 ++ x :: l2) = Some x.
Proof.
  intros Hl1 Hx. induction l1 as [|y l1 IH]; simpl.
  - rewrite Hx. reflexivity.
  - rewrite (Hl1 y) by apply list_elem_of_here.
    apply IH. intros z Hz. apply Hl1. apply list_elem_of_further. exact Hz.
Qed.

Lemma find_nothing {A : Type} (f : A -> bool) (l : list A) :
  (forall y, y ∈ l -> f y = false) ->
  find f l = None.
Proof.
  intros Hl. induction l as [|y l IH]; simpl; [reflexivity|].
  rewrite (Hl y) by apply list_elem_of_here.
  apply IH. intros z Hz. apply Hl. apply list_elem_of_further. exact Hz.
Qed.

(** The handler calls [onSubmit] once, whatever the mode. *)
Lemma onFormSub_submitted (props : AttributeMappingListItemProps)
    (vals : gmap string Js.value) (w : World) :
  submitted (exec (onFormSub props vals) w)
  = submitted w ++ [newAttributeMapping vals w].
Proof.
  unfold onFormSub, exec, newAttributeMapping.
  destruct (Js.truthy_flag (editingMode props)); reflexivity.
Qed.

Lemma onFormSub_editing (props : AttributeMappingListItemProps)
    (vals : gmap string Js.value) (w : World) :
  Js.truthy_flag (editingMode props) = true ->
  exec (onFormSub props vals) w
  = {| component := component w;
       form := form w;
       submitted := submitted w ++ [newAttributeMapping vals w] |}.
Proof.
  intros He. unfold onFormSub, exec, newAttributeMapping.
  rewrite He. reflexivity.
Qed.

Lemma onFormSub_adding (props : AttributeMappingListItemProps)
    (vals : gmap string Js.value) (w : World) :
  Js.truthy_flag (editingMode props) = false ->
  exec (onFormSub props vals) w
  = {| component :=
         {| copyOfAttrs := copyOfAttrs (component w);
            mappedInputValue := Js.Str [];
            selectedLocalAttributeInputValue := Js.Str [];
            mappingHasError := mappingHasError (component w) |};
       form := form_after_reset (form w);
       submitted := submitted w ++ [newAttributeMapping vals w] |}.
Proof.
  intros He. unfold onFormSub, exec, newAttributeMapping.
  rewrite He. reflexivity.
Qed.

Lemma FormApi_change_member (name : string) (v : Js.value) (f : FormState) :
  member (values (FormApi_change name v f)) name = v.
Proof.
  unfold FormApi_change, Js.strict_eq. case_bool_decide as H.
  - exact H.
  - unfold member. simpl. rewrite lookup_insert_eq. reflexivity.
Qed.

Lemma FormApi_change_member_ne (name name' : string) (v : Js.value)
    (f : FormState) :
  name <> name' ->
  member (values (FormApi_change name v f)) name' = member (values f) name'.
Proof.
  intros Hne. unfold FormApi_change. destruct (Js.strict_eq _ _);
    [reflexivity|].
  unfold member. simpl. rewrite lookup_insert_ne by exact Hne. reflexivity.
Qed.

Lemma form_after_reset_values (f : FormState) :
  member (values (form_after_reset f)) "mappedValue" = Js.Str []
  /\ member (values (form_after_reset f)) "localClaimId" = Js.Str [].
Proof.
  unfold form_after_reset. simpl. split.
  - rewrite FormApi_change_member_ne by discriminate.
    apply FormApi_change_member.
  - apply FormApi_change_member.
Qed.

Lemma form_after_reset_fields (f : FormState) :
  fields (form_after_reset f) !! "mappedValue" = Some pristine
  /\ fields (form_after_reset f) !! "localClaimId" = Some pristine.
Proof.
  unfold form_after_reset. simpl. split.
  - rewrite lookup_insert_ne by discriminate. apply lookup_insert_eq.
  - apply lookup_insert_eq.
Qed.

(** C6: the handler builds one mapping from the submitted values, its
    external value being the submitted draft and its local attribute the
    element of the candidate list with the selected id (the first one, were
    there several), and calls [onSubmit] once, with that mapping. *)
Theorem submit_emits_mapping
    (props : AttributeMappingListItemProps) (vals : gmap string Js.value)
    (w : World) (before after : list IDVPLocalClaimInterface)
    (c : IDVPLocalClaimInterface) :
  copyOfAttrs (component w) = before ++ c :: after ->
  id c = member vals "localClaimId" ->
  (forall c', c' ∈ before -> id c' <> member vals "localClaimId") ->
  submitted (exec (onFormSub props vals) w)
  = submitted w ++ [ {| idvpClaim := member vals "mappedValue";
                        localClaim := Some c |} ].
Proof.
  intros Hl Hc Hbefore. rewrite onFormSub_submitted.
  unfold newAttributeMapping. rewrite Hl, find_first; [reflexivity| |].
  - intros y Hy. apply bool_decide_eq_false_2. apply Hbefore. exact Hy.
  - apply bool_decide_eq_true_2. exact Hc.
Qed.

Lemma submit_emits_mapping_witness :
  submitted (exec (onFormSub props_add sample_values) sample_world)
  = [ {| idvpClaim := Js.Str (Js.lit "urn:y"); localClaim := Some attr_a1 |} ].
Proof.
  apply (submit_emits_mapping props_add sample_values sample_world
           [attr_a2] [] attr_a1).
  - reflexivity.
  - reflexivity.
  - intros c' Hc'. apply list_elem_of_singleton in Hc'. subst c'.
    discriminate.
Defined.

(** C9: when no element of the candidate list has the selected id, the
    handler still calls [onSubmit] once, with a mapping that has the
    submitted draft as external value and no local attribute. *)
Theorem submit_without_match
    (props : AttributeMappingListItemProps) (vals : gmap string Js.value)
    (w : World) :
  (forall c, c ∈ copyOfAttrs (component w) ->
             id c <> member vals "localClaimId") ->
  submitted (exec (onFormSub props vals) w)
  = submitted w ++ [ {| idvpClaim := member vals "mappedValue";
                        localClaim := None |} ].
Proof.
  intros Hno. rewrite onFormSub_submitted.
  unfold newAttributeMapping. rewrite find_nothing; [reflexivity|].
  intros y Hy. apply bool_decide_eq_false_2. apply Hno. exact Hy.
Qed.

Lemma submit_without_match_witness :
  submitted (exec (onFormSub props_add sample_values_unmatched) sample_world)
  = [ {| idvpClaim := Js.Str (Js.lit "urn:y"); localClaim := None |} ].
Proof.
  apply (submit_without_match props_add sample_values_unmatched
           sample_world).
  intros c Hc.
  apply elem_of_cons in Hc as [-> | Hc]; [discriminate|].
  apply list_elem_of_singleton in Hc. subst c. discriminate.
Defined.

(** C7: after a submission out of editing mode, both fields of the form
    hold the empty string, the state of both fields is the initial one, and
    both drafts of the component are the empty string; after a submission in
    editing mode, the state of the component and the form are as before. *)
Theorem post_submit_state
    (props : AttributeMappingListItemProps) (vals : gmap string Js.value)
    (w : World) :
  let w' := exec (onFormSub props vals) w in
  (Js.truthy_flag (editingMode props) = false ->
   member (values (form w')) "mappedValue" = Js.Str []
   /\ member (values (form w')) "localClaimId" = Js.Str []
   /\ fields (form w') !! "mappedValue" = Some pristine
   /\ fields (form w') !! "localClaimId" = Some pristine
   /\ mappedInputValue (component w') = Js.Str []
   /\ selectedLocalAttributeInputValue (component w') = Js.Str [])
  /\ (Js.truthy_flag (editingMode props) = true ->
      component w' = component w /\ form w' = form w).
Proof.
  intros w'. subst w'. split; intros He.
  - rewrite onFormSub_adding by exact He. simpl.
    destruct (form_after_reset_values (form w)) as [Hv1 Hv2].
    destruct (form_after_reset_fields (form w)) as [Hf1 Hf2].
    repeat split; assumption.
  - rewrite onFormSub_editing by exact He. simpl. split; reflexivity.
Qed.

Lemma post_submit_state_witness :
  (member (values (form (exec (onFormSub props_add sample_values)
                           sample_world))) "mappedValue" = Js.Str []
   /\ mappedInputValue
        (component (exec (onFormSub props_add sample_values) sample_world))
      = Js.Str [])
  /\ component (exec (onFormSub props_edit sample_values) sample_world)
     = component sample_world.
Proof.
  split.
  - destruct (proj1 (post_submit_state props_add sample_values sample_world)
                eq_refl) as (Hv & _ & _ & _ & Hd & _).
    split; [exact Hv | exact Hd].
  - exact (proj1 (proj2 (post_submit_state props_edit sample_values
                           sample_world) eq_refl)).
Defined.

(** ** The submit button *)

Lemma submit_disabled_true (c : ComponentState) :
  mappingHasError c = Some true
  \/ empty_draft (mappedInputValue c)
  \/ empty_draft (selectedLocalAttributeInputValue c) ->
  submit_disabled c = true.
Proof.
  unfold submit_disabled, empty_draft.
  intros [H | [[H | [H | H]] | [H | [H | H]]]]; rewrite H; simpl;
    rewrite ?orb_true_r; reflexivity.
Qed.

(** Every render shows one submit button. *)
Lemma render_buttons_one (props : AttributeMappingListItemProps)
    (c : ComponentState) :
  exists b, render_buttons props c = [b] /\ disabled b = submit_disabled c.
Proof.
  unfold render_buttons.
  destruct (Js.truthy_flag (editingMode props)); simpl; eauto.
Qed.

(** C8: in every state that the editor can reach, in editing mode or not,
    the submit button that is rendered is disabled whenever the error flag is
    [true], or the external value draft is empty, or no local attribute is
    selected. *)
Theorem submit_disabled_invariant
    (url isValidResourceName : Js.jsstring -> bool)
    (props : AttributeMappingListItemProps) (w : World) :
  reachable url isValidResourceName (props, w) ->
  mappingHasError (component w) = Some true
  \/ empty_draft (mappedInputValue (component w))
  \/ empty_draft (selectedLocalAttributeInputValue (component w)) ->
  exists b, render_buttons props (component w) = [b] /\ disabled b = true.
Proof.
  intros _ H.
  destruct (render_buttons_one props (component w)) as (b & Hb & Hd).
  exists b. split; [exact Hb|].
  rewrite Hd. apply submit_disabled_true. exact H.
Qed.

Lemma submit_disabled_invariant_witness :
  exists b,
    render_buttons props_add (component (snd sample_invalid)) = [b]
    /\ disabled b = true.
Proof.
  apply (submit_disabled_invariant has_scheme letters_only
           props_add (snd sample_invalid)).
  - change (props_add, snd sample_invalid) with sample_invalid.
    unfold sample_invalid.
    apply reachable_step. apply reachable_step. apply reachable_step.
    apply (reachable_mount _ _ props_add). reflexivity.
  - left. vm_compute. reflexivity.
Defined.

(** ** A worked session *)

Example trim_strips_both_ends :
  Js.trim (Js.lit "  urn:y ") = Js.lit "urn:y".
Proof. reflexivity. Qed.

Example trim_keeps_inner_space :
  Js.trim (Js.lit " given name") = Js.lit "given name".
Proof. reflexivity. Qed.

Example session_before_submit :
  option_map (fun cfg => submit_disabled
                           (component (snd (run cfg (removelast session)))))
             (mount props_first)
  = Some false.
Proof. vm_compute. reflexivity. Qed.

Example session_submits :
  option_map (fun cfg => submitted (snd (run cfg session))) (mount props_first)
  = Some [ {| idvpClaim := Js.Str (Js.lit "urn:y");
              localClaim := Some attr_a1 |} ].
Proof. vm_compute. reflexivity. Qed.

Example session_resets_drafts :
  option_map (fun cfg =>
                let c := component (snd (run cfg session)) in
                (mappedInputValue c, selectedLocalAttributeInputValue c))
             (mount props_first)
  = Some (Js.Str [], Js.Str []).
Proof. vm_compute. reflexivity. Qed.

(** Mounting an editor on a mapping without local attribute fails. *)
Example mount_without_local_claim :
  mount {| availableAttributeList := Some [attr_a1];
           alreadyMappedAttributesList := [];
           editingMode := Some true;
           mapping := Some {| idvpClaim := Js.Str (Js.lit "mail");
                              localClaim := None |} |}
  = None.
Proof. reflexivity. Qed.

(** ** More on the validator *)

(** The validator returns the verdict on the value and records in the error
    flag whether the verdict is an error; it does nothing else. *)
Lemma validation_verdict
    (url isValidResourceName : Js.jsstring -> bool)
    (props : AttributeMappingListItemProps) (v : Js.value) (w : World) :
  validation url isValidResourceName props v w
  = (verdict url isValidResourceName props v,
     with_error (bool_decide (is_Some (verdict url isValidResourceName props v)))
       w).
Proof.
  unfold verdict. destruct (blank v) eqn:Hb.
  - rewrite !validation_blank by exact Hb. reflexivity.
  - destruct v as [| |s]; try discriminate Hb.
    rewrite !validation_not_blank by exact Hb.
    destruct (negb (url s) && negb (isValidResourceName s)); [reflexivity|].
    destruct (bool_decide (already_mapped props (Js.Str s))); [|reflexivity].
    destruct (bool_decide (edits_unchanged props (Js.Str s))); reflexivity.
Qed.

(** X1: the validator touches nothing but the error flag: the candidate
    list, both drafts, the form and the log of [onSubmit] calls are as
    before, and what it returns does not depend on the state it runs in. *)
Theorem validation_frame
    (url isValidResourceName : Js.jsstring -> bool)
    (props : AttributeMappingListItemProps) (v : Js.value) (w w0 : World) :
  let w' := snd (validation url isValidResourceName props v w) in
  copyOfAttrs (component w') = copyOfAttrs (component w)
  /\ mappedInputValue (component w') = mappedInputValue (component w)
  /\ selectedLocalAttributeInputValue (component w')
     = selectedLocalAttributeInputValue (component w)
  /\ form w' = form w
  /\ submitted w' = submitted w
  /\ fst (validation url isValidResourceName props v w)
     = fst (validation url isValidResourceName props v w0).
Proof.
  rewrite (validation_verdict _ _ _ _ w), (validation_verdict _ _ _ _ w0).
  simpl. repeat split; reflexivity.
Qed.

(** X2: after a validation the error flag is a boolean, and it is [true]
    exactly when the validator returned an error. *)
Theorem validation_flag_agrees
    (url isValidResourceName : Js.jsstring -> bool)
    (props : AttributeMappingListItemProps) (v : Js.value) (w : World) :
  mappingHasError
    (component (snd (validation url isValidResourceName props v w)))
  = Some (bool_decide
            (is_Some (fst (validation url isValidResourceName props v w)))).
Proof.
  rewrite (validation_verdict _ _ _ _ w). reflexivity.
Qed.

(** X3: validating the same value again, right after a validation, returns
    the same verdict and leaves the state as the first validation left it. *)
Theorem validation_idempotent
    (url isValidResourceName : Js.jsstring -> bool)
    (props : AttributeMappingListItemProps) (v : Js.value) (w : World) :
  validation url isValidResourceName props v
    (snd (validation url isValidResourceName props v w))
  = validation url isValidResourceName props v w.
Proof.
  rewrite (validation_verdict _ _ _ _ w). simpl.
  rewrite validation_verdict. reflexivity.
Qed.

(** X4: the validator passes a value exactly when it is a string that is
    not blank, that one of the two format checks accepts, and that either is
    the external value of no mapping of the list or is the unchanged value of
    the mapping being edited. *)
Theorem validation_passes_iff
    (url isValidResourceName : Js.jsstring -> bool)
    (props : AttributeMappingListItemProps) (v : Js.value) (w : World) :
  fst (validation url isValidResourceName props v w) = None
  <-> blank v = false
      /\ (exists s, v = Js.Str s
                    /\ (url s = true \/ isValidResourceName s = true))
      /\ (~ already_mapped props v \/ edits_unchanged props v).
Proof.
  destruct (blank v) eqn:Hb.
  - rewrite validation_blank by exact Hb. simpl.
    split; [discriminate | intros [H _]; discriminate H].
  - destruct v as [| |s]; try discriminate Hb.
    rewrite validation_not_blank by exact Hb.
    destruct (url s) eqn:Hu, (isValidResourceName s) eqn:Hn; simpl;
      repeat case_bool_decide; simpl; split;
      try discriminate; try tauto;
      try (intros _; repeat split; eauto; fail);
      try (intros (_ & (s' & Hs & [Hs' | Hs']) & _); congruence).
Qed.

Lemma validation_passes_iff_witness :
  fst (validation has_scheme letters_only props_edit
         (Js.Str (Js.lit "mail")) (initial_world props_edit))
  = None.
Proof.
  apply (proj2 (validation_passes_iff has_scheme letters_only props_edit
                  (Js.Str (Js.lit "mail")) (initial_world props_edit))).
  split; [reflexivity|]. split.
  - exists (Js.lit "mail"). split; [reflexivity|]. right. reflexivity.
  - right. split; [reflexivity|]. exists mapping_mail.
    split; reflexivity.
Defined.

(** ** Mounting *)

Lemma useEffect_availableAttributeList_frame
    (props : AttributeMappingListItemProps) (w : World) :
  let w' := exec (useEffect_availableAttributeList props) w in
  mappedInputValue (component w') = mappedInputValue (component w)
  /\ selectedLocalAttributeInputValue (component w')
     = selectedLocalAttributeInputValue (component w)
  /\ mappingHasError (component w') = mappingHasError (component w)
  /\ form w' = form w
  /\ submitted w' = submitted w.
Proof.
  unfold useEffect_availableAttributeList.
  destruct (availableAttributeList props); simpl; repeat split; reflexivity.
Qed.

(** What a successful mount leaves in the state. *)
Lemma mount_state (props : AttributeMappingListItemProps) (cfg : Config) :
  mount props = Some cfg ->
  fst cfg = props
  /\ mappingHasError (component (snd cfg)) = None
  /\ form (snd cfg) = initial_form props
  /\ submitted (snd cfg) = []
  /\ (if Js.truthy_flag (editingMode props)
      then mappedInputValue (component (snd cfg))
           = mapping_idvpClaim (mapping props)
           /\ selectedLocalAttributeInputValue (component (snd cfg))
              = mapping_localClaim_opt_id (mapping props)
      else mappedInputValue (component (snd cfg)) = Js.Undefined
           /\ selectedLocalAttributeInputValue (component (snd cfg))
              = Js.Undefined).
Proof.
  unfold mount, useEffect_mount. intros Hm.
  destruct (useEffect_availableAttributeList_frame props
              (initial_world props)) as (Ha0 & Hb0 & Hc0 & Hd0 & He0).
  destruct (Js.truthy_flag (editingMode props)).
  - destruct (mapping_localClaim_id (mapping props)) as [i|] eqn:Hi;
      [|discriminate Hm].
    injection Hm as <-.
    match goal with
    | |- context [exec (useEffect_availableAttributeList props) ?w1] =>
        destruct (useEffect_availableAttributeList_frame props w1)
          as (Ha & Hb & Hc & Hd & He)
    end.
    simpl fst. simpl snd. rewrite Ha, Hb, Hc, Hd, He.
    repeat split; try reflexivity.
    unfold mapping_localClaim_id, mapping_localClaim_opt_id,
      mapping_localClaim in *.
    destruct (mapping props) as [m|]; [|simpl; congruence].
    destruct (localClaim m); simpl; congruence.
  - injection Hm as <-. simpl fst. simpl snd.
    rewrite Ha0, Hb0, Hc0, Hd0, He0. repeat split; reflexivity.
Qed.

(** X5: mounting the editor fails exactly when it is in editing mode on a
    mapping that has no local attribute ([mapping?.localClaim.id] reads [id]
    of [undefined]); out of editing mode, or without a mapping, it succeeds. *)
Theorem mount_fails_iff (props : AttributeMappingListItemProps) :
  mount props = None
  <-> editingMode props = Some true
      /\ exists m, mapping props = Some m /\ localClaim m = None.
Proof.
  unfold mount, useEffect_mount, mapping_localClaim_id.
  destruct (editingMode props) as [[|]|]; simpl;
    try (split; [discriminate | intros [H _]; discriminate H]).
  destruct (mapping props) as [m|]; simpl.
  - destruct (localClaim m) eqn:Hc; simpl.
    + split; [discriminate|]. intros [_ (m' & Hm & Hn)]. congruence.
    + split; [|reflexivity]. intros _. split; [reflexivity|]. eauto.
  - split; [discriminate|]. intros [_ (m' & Hm & _)]. discriminate Hm.
Qed.

Lemma mount_fails_iff_witness : mount props_edit_orphan = None.
Proof.
  apply (proj2 (mount_fails_iff props_edit_orphan)).
  split; [reflexivity|]. exists mapping_orphan. split; reflexivity.
Defined.

(** X6: right after a successful mount the submit button is enabled exactly
    when the editor is in editing mode on a mapping with an external value
    that is not empty and a local attribute whose id is not empty; a fresh
    editor out of editing mode always starts with the button disabled. *)
Theorem mount_submit_enabled_iff
    (props : AttributeMappingListItemProps) (cfg : Config) :
  mount props = Some cfg ->
  submit_disabled (component (snd cfg)) = false
  <-> editingMode props = Some true
      /\ exists m c, mapping props = Some m
                     /\ localClaim m = Some c
                     /\ has_external_value m
                     /\ Js.truthy (id c) = true.
Proof.
  intros Hm. destruct (mount_state props cfg Hm) as (_ & Hf & _ & _ & Hd).
  unfold submit_disabled. rewrite Hf. simpl.
  destruct (editingMode props) as [[|]|]; simpl in Hd;
    destruct Hd as [-> ->]; simpl;
    try (split; [discriminate | intros [H _]; discriminate H]).
  unfold mapping_localClaim_opt_id, mapping_localClaim, mapping_idvpClaim,
    has_external_value.
  destruct (mapping props) as [m|]; simpl.
  - destruct (localClaim m) as [c|] eqn:Hlc; simpl.
    + rewrite orb_false_iff, !negb_false_iff. split.
      * intros [Hi Hc]. split; [reflexivity|]. exists m, c.
        split; [reflexivity|]. split; [exact Hlc|]. split; [|exact Hc].
        destruct (idvpClaim m) as [| |[|u s]]; try discriminate Hi.
        exists (u :: s). split; [discriminate | reflexivity].
      * intros [_ (m' & c' & Hm' & Hc' & (s & Hs & Hi) & Ht)].
        injection Hm' as <-. rewrite Hlc in Hc'. injection Hc' as <-.
        rewrite Hi. split; [|exact Ht].
        destruct s; [contradiction | reflexivity].
    + rewrite orb_true_r. split; [discriminate|].
      intros [_ (m' & c' & Hm' & Hc' & _)].
      injection Hm' as <-. congruence.
  - split; [discriminate|].
    intros [_ (m' & c' & Hm' & _)]. discriminate Hm'.
Qed.

Lemma mount_submit_enabled_iff_witness :
  submit_disabled (component (snd mounted_edit)) = false
  /\ submit_disabled (component (snd mounted_add)) <> false.
Proof.
  split.
  - apply (proj2 (mount_submit_enabled_iff props_edit mounted_edit eq_refl)).
    split; [reflexivity|]. exists mapping_mail, attr_a2.
    split; [reflexivity|]. split; [reflexivity|]. split; [|reflexivity].
    exists (Js.lit "mail"). split; [discriminate | reflexivity].
  - intros H.
    apply (proj1 (mount_submit_enabled_iff props_add mounted_add eq_refl))
      in H as [H _].
    discriminate H.
Defined.

(** ** The options of the dropdown *)

Lemma options_values (c : ComponentState) :
  map value (getListOfAvailableAttributes c) = map id (copyOfAttrs c)
  /\ map key (getListOfAvailableAttributes c) = map id (copyOfAttrs c).
Proof.
  unfold getListOfAvailableAttributes. rewrite !map_map. split; reflexivity.
Qed.

Lemma effect_copyOfAttrs (props : AttributeMappingListItemProps)
    (A : list IDVPLocalClaimInterface) (w : World) :
  availableAttributeList props = Some A ->
  copyOfAttrs (component (exec (useEffect_availableAttributeList props) w))
  = derive_copy props A.
Proof.
  intros HA. unfold useEffect_availableAttributeList. rewrite HA. reflexivity.
Qed.

(** X7: once the effect on the available list has run in editing mode on a
    mapping with an external value and a local attribute, the dropdown offers
    the ids of the available attributes in their order, followed by the id
    of the edited mapping's attribute: the value that the dropdown
    preselects is among the offered ones. *)
Theorem edited_attribute_offered
    (props : AttributeMappingListItemProps)
    (A : list IDVPLocalClaimInterface)
    (m : IDVPClaimMappingInterface) (c : IDVPLocalClaimInterface)
    (w : World) :
  availableAttributeList props = Some A ->
  editingMode props = Some true ->
  mapping props = Some m ->
  has_external_value m ->
  localClaim m = Some c ->
  let options :=
    getListOfAvailableAttributes
      (component (exec (useEffect_availableAttributeList props) w)) in
  map value options = map id A ++ [id c]
  /\ mapping_localClaim_opt_id (mapping props) ∈ map value options.
Proof.
  intros HA He Hm Hx Hc options. subst options.
  destruct (options_values
              (component (exec (useEffect_availableAttributeList props) w)))
    as [Hv _].
  rewrite Hv, (effect_copyOfAttrs props A w HA),
    (derive_copy_appends props A m c He Hm Hx Hc), map_app.
  split; [reflexivity|].
  unfold mapping_localClaim_opt_id, mapping_localClaim. rewrite Hm, Hc.
  apply elem_of_app. right. apply list_elem_of_here.
Qed.

Lemma edited_attribute_offered_witness :
  map value
    (getListOfAvailableAttributes
       (component (exec (useEffect_availableAttributeList props_edit)
                     (initial_world props_edit))))
  = map id [attr_a1] ++ [id attr_a2]
  /\ mapping_localClaim_opt_id (mapping props_edit)
     ∈ map value
         (getListOfAvailableAttributes
            (component (exec (useEffect_availableAttributeList props_edit)
                          (initial_world props_edit)))).
Proof.
  apply (edited_attribute_offered props_edit [attr_a1] mapping_mail attr_a2
           (initial_world props_edit)).
  - reflexivity.
  - reflexivity.
  - reflexivity.
  - exists (Js.lit "mail"). split; [discriminate | reflexivity].
  - reflexivity.
Defined.

(** X8: the effect does not look for the attribute of the edited mapping in
    the available list: when the caller leaves it there, the dropdown gets
    two options with the same key. *)
Theorem edited_attribute_not_deduplicated
    (props : AttributeMappingListItemProps)
    (A : list IDVPLocalClaimInterface)
    (m : IDVPClaimMappingInterface) (c : IDVPLocalClaimInterface)
    (w : World) :
  availableAttributeList props = Some A ->
  editingMode props = Some true ->
  mapping props = Some m ->
  has_external_value m ->
  localClaim m = Some c ->
  c ∈ A ->
  ~ NoDup (map key
             (getListOfAvailableAttributes
                (component (exec (useEffect_availableAttributeList props)
                              w)))).
Proof.
  intros HA He Hm Hx Hc Hin.
  destruct (options_values
              (component (exec (useEffect_availableAttributeList props) w)))
    as [_ Hk].
  rewrite Hk, (effect_copyOfAttrs props A w HA),
    (derive_copy_appends props A m c He Hm Hx Hc), map_app.
  intros Hnd. apply NoDup_app in Hnd as (_ & Hdisj & _).
  apply (Hdisj (id c)).
  - apply list_elem_of_In, in_map, list_elem_of_In. exact Hin.
  - apply list_elem_of_here.
Qed.

Lemma edited_attribute_not_deduplicated_witness :
  ~ NoDup (map key
             (getListOfAvailableAttributes
                (component
                   (exec (useEffect_availableAttributeList props_edit_twice)
                      (initial_world props_edit_twice))))).
Proof.
  apply (edited_attribute_not_deduplicated props_edit_twice
           [attr_a2; attr_a1] mapping_mail attr_a2
           (initial_world props_edit_twice)).
  - reflexivity.
  - reflexivity.
  - reflexivity.
  - exists (Js.lit "mail"). split; [discriminate | reflexivity].
  - reflexivity.
  - apply list_elem_of_here.
Defined.

(** X9: whatever option of the dropdown the user selects, the handler finds
    a candidate with that id: a submission with an offered value never hands
    a mapping without local attribute to [onSubmit]. *)
Theorem offered_option_resolves
    (props : AttributeMappingListItemProps) (vals : gmap string Js.value)
    (w : World) (o : DropdownOption) :
  o ∈ getListOfAvailableAttributes (component w) ->
  member vals "localClaimId" = value o ->
  exists c,
    c ∈ copyOfAttrs (component w)
    /\ id c = value o
    /\ submitted (exec (onFormSub props vals) w)
       = submitted w ++ [ {| idvpClaim := member vals "mappedValue";
                             localClaim := Some c |} ].
Proof.
  intros Ho Hsel. rewrite onFormSub_submitted. unfold newAttributeMapping.
  rewrite Hsel.
  unfold getListOfAvailableAttributes in Ho.
  apply list_elem_of_In, in_map_iff in Ho as (c0 & Ho & Hc0).
  assert (Hex : exists c1, c1 ∈ copyOfAttrs (component w)
                           /\ id c1 = value o).
  { exists c0. split; [apply list_elem_of_In; exact Hc0|].
    subst o. reflexivity. }
  clear c0 Ho Hc0.
  induction (copyOfAttrs (component w)) as [|a l IH].
  - destruct Hex as (c1 & Hin & _). apply not_elem_of_nil in Hin.
    contradiction.
  - simpl. unfold Js.strict_eq at 1. case_bool_decide as Ha.
    + exists a. split; [apply list_elem_of_here|]. split; [exact Ha|].
      reflexivity.
    + destruct IH as (c & Hin & Hid & Heq).
      * destruct Hex as (c1 & Hin & Hid).
        apply elem_of_cons in Hin as [-> | Hin]; [contradiction|].
        exists c1. split; assumption.
      * exists c. split; [apply list_elem_of_further; exact Hin|].
        split; [exact Hid|]. exact Heq.
Qed.

Lemma offered_option_resolves_witness :
  exists c,
    c ∈ copyOfAttrs (component sample_world)
    /\ id c = Js.Str (Js.lit "a1")
    /\ submitted (exec (onFormSub props_add sample_values) sample_world)
       = submitted sample_world
         ++ [ {| idvpClaim := member sample_values "mappedValue";
                 localClaim := Some c |} ].
Proof.
  apply (offered_option_resolves props_add sample_values sample_world
           {| key := Js.Str (Js.lit "a1");
              text := Js.Str (Js.lit "First name");
              value := Js.Str (Js.lit "a1") |}).
  - apply list_elem_of_further. apply list_elem_of_here.
  - reflexivity.
Defined.

(** ** Editing and submitting *)

Lemma initial_form_members (props : AttributeMappingListItemProps)
    (m : IDVPClaimMappingInterface) :
  mapping props = Some m ->
  member (values (initial_form props)) "mappedValue" = idvpClaim m
  /\ member (values (initial_form props)) "localClaimId"
     = mapping_localClaim_opt_id (mapping props).
Proof.
  intros Hm. unfold initial_form, member. rewrite Hm. simpl. split.
  - rewrite lookup_insert_ne by discriminate. rewrite lookup_insert_eq.
    reflexivity.
  - rewrite lookup_insert_eq. reflexivity.
Qed.

(** X10: an editor mounted in editing mode on a mapping with an external
    value and a local attribute whose id no available attribute shares,
    when submitted as it is, hands that very mapping to [onSubmit], once. *)
Theorem edit_round_trip
    (url isValidResourceName : Js.jsstring -> bool)
    (props : AttributeMappingListItemProps)
    (A : list IDVPLocalClaimInterface)
    (m : IDVPClaimMappingInterface) (c : IDVPLocalClaimInterface)
    (cfg : Config) :
  mount props = Some cfg ->
  availableAttributeList props = Some A ->
  editingMode props = Some true ->
  mapping props = Some m ->
  has_external_value m ->
  localClaim m = Some c ->
  (forall a, a ∈ A -> id a <> id c) ->
  submitted (snd (step url isValidResourceName cfg Submit)) = [m].
Proof.
  intros Hmount HA He Hm Hx Hc Hfresh.
  destruct (mount_state props cfg Hmount) as (Hp & _ & Hform & Hsub & _).
  pose proof (mount_candidate_list props A cfg HA Hmount) as Hcopy.
  rewrite (derive_copy_appends props A m c He Hm Hx Hc) in Hcopy.
  destruct cfg as [p w]. simpl in Hp, Hform, Hsub, Hcopy. subst p.
  simpl. rewrite onFormSub_submitted, Hsub, Hform.
  unfold newAttributeMapping.
  destruct (initial_form_members props m Hm) as [-> ->].
  unfold mapping_localClaim_opt_id, mapping_localClaim.
  rewrite Hm, Hc, Hcopy, find_first.
  - destruct m as [ext loc]. simpl in Hc. subst loc. reflexivity.
  - intros a Ha. apply bool_decide_eq_false_2. apply Hfresh. exact Ha.
  - apply bool_decide_eq_true_2. reflexivity.
Qed.

Lemma edit_round_trip_witness :
  submitted (snd (step has_scheme letters_only mounted_edit Submit))
  = [mapping_mail].
Proof.
  apply (edit_round_trip has_scheme letters_only props_edit [attr_a1]
           mapping_mail attr_a2 mounted_edit).
  - reflexivity.
  - reflexivity.
  - reflexivity.
  - reflexivity.
  - exists (Js.lit "mail"). split; [discriminate | reflexivity].
  - reflexivity.
  - intros a Ha. apply list_elem_of_singleton in Ha. subst a. discriminate.
Defined.

(** X11: after a submission out of editing mode the submit button is
    disabled, whatever was submitted and whatever the error flag says. *)
Theorem submit_then_disabled
    (props : AttributeMappingListItemProps) (vals : gmap string Js.value)
    (w : World) :
  Js.truthy_flag (editingMode props) = false ->
  exists b,
    render_buttons props (component (exec (onFormSub props vals) w)) = [b]
    /\ disabled b = true.
Proof.
  intros He.
  destruct (render_buttons_one props
              (component (exec (onFormSub props vals) w))) as (b & Hb & Hd).
  exists b. split; [exact Hb|]. rewrite Hd.
  apply submit_disabled_true. right. left.
  rewrite onFormSub_adding by exact He. simpl.
  right. right. reflexivity.
Qed.

Lemma submit_then_disabled_witness :
  exists b,
    render_buttons props_add
      (component (exec (onFormSub props_add sample_values) sample_world))
    = [b]
    /\ disabled b = true.
Proof.
  apply (submit_then_disabled props_add sample_values sample_world).
  reflexivity.
Defined.

(** X12: in both modes the handler leaves the candidate list and the error
    flag as they are, and keeps the earlier calls of [onSubmit] in the log. *)
Theorem onFormSub_frame
    (props : AttributeMappingListItemProps) (vals : gmap string Js.value)
    (w : World) :
  let w' := exec (onFormSub props vals) w in
  copyOfAttrs (component w') = copyOfAttrs (component w)
  /\ mappingHasError (component w') = mappingHasError (component w)
  /\ submitted w `prefix_of` submitted w'.
Proof.
  intros w'. subst w'.
  destruct (Js.truthy_flag (editingMode props)) eqn:He.
  - rewrite onFormSub_editing by exact He. simpl.
    repeat split. apply prefix_app_r. reflexivity.
  - rewrite onFormSub_adding by exact He. simpl.
    repeat split. apply prefix_app_r. reflexivity.
Qed.

(** ** Renders and runs *)

(** X13: a render with new properties changes neither the drafts, nor the
    error flag, nor the form, nor the log; and when the available list is
    the same array with the same contents, it changes nothing at all, even
    if the mode or the edited mapping are other ones. *)
Theorem rerender_frame
    (url isValidResourceName : Js.jsstring -> bool)
    (props props' : AttributeMappingListItemProps) (fresh : bool)
    (w : World) :
  let w' := snd (step url isValidResourceName (props, w)
                   (Rerender props' fresh)) in
  mappedInputValue (component w') = mappedInputValue (component w)
  /\ selectedLocalAttributeInputValue (component w')
     = selectedLocalAttributeInputValue (component w)
  /\ mappingHasError (component w') = mappingHasError (component w)
  /\ form w' = form w
  /\ submitted w' = submitted w
  /\ (fresh = false ->
      availableAttributeList props' = availableAttributeList props ->
      w' = w).
Proof.
  intros w'. subst w'. simpl.
  destruct (useEffect_availableAttributeList_frame props' w)
    as (Ha & Hb & Hc & Hd & He).
  destruct fresh.
  - repeat split; try assumption.
    intros Hfresh. discriminate Hfresh.
  - repeat split; reflexivity.
Qed.

Lemma rerender_frame_witness :
  snd (step has_scheme letters_only (props_add, snd mounted_add)
         (Rerender props_edit false))
  = snd mounted_add.
Proof.
  refine (proj2 (proj2 (proj2 (proj2 (proj2
            (rerender_frame has_scheme letters_only props_add
               props_edit false (snd mounted_add)))))) _ _).
  - reflexivity.
  - reflexivity.
Defined.

Lemma step_submitted
    (url isValidResourceName : Js.jsstring -> bool)
    (cfg : Config) (e : Event) :
  length (submitted (snd (step url isValidResourceName cfg e)))
  = length (submitted (snd cfg)) + (if is_submit e then 1 else 0).
Proof.
  destruct cfg as [props w].
  destruct e; unfold step; cbn [snd fst is_submit].
  - unfold exec. rewrite (validation_verdict _ _ _ _ w). simpl. lia.
  - simpl. lia.
  - simpl. lia.
  - simpl. lia.
  - rewrite onFormSub_submitted, length_app. simpl. lia.
  - destruct (useEffect_availableAttributeList_frame props' w)
      as (_ & _ & _ & _ & He).
    destruct fresh; [rewrite He|]; lia.
Qed.

(** X14: along any run of events, [onSubmit] is called once for each
    submission and by nothing else: the log grows by the number of [Submit]
    events. *)
Theorem onSubmit_once_per_submit
    (url isValidResourceName : Js.jsstring -> bool)
    (cfg : Config) (events : list Event) :
  length (submitted (snd (run_events url isValidResourceName cfg events)))
  = length (submitted (snd cfg)) + length (List.filter is_submit events).
Proof.
  unfold run_events. revert cfg.
  induction events as [|e events IH]; intros cfg; simpl.
  - lia.
  - rewrite IH, step_submitted.
    destruct (is_submit e); simpl; lia.
Qed.

(** ** The grid *)

(** X15: in both modes every row of the grid declares as many columns as it
    holds, no row is wider than the sixteen units of the grid, and the grid
    holds the submit buttons of [render_buttons] and no other. *)
Theorem render_layout
    (props : AttributeMappingListItemProps) (c : ComponentState) :
  Forall (fun row => columns row = length (cells row)
                     /\ row_width row <= 16)
         (render props c)
  /\ buttons_of (render props c) = render_buttons props c.
Proof.
  unfold render, render_buttons, row_width.
  destruct (Js.truthy_flag (editingMode props)); simpl.
  - split; [|reflexivity].
    repeat constructor.
  - split; [|reflexivity].
    repeat constructor.
Qed.

(** X16: the submit button is enabled exactly when the error flag is not
    [true] (it may be unset: no validation has run) and both drafts are
    filled. *)
Theorem submit_enabled_iff (c : ComponentState) :
  submit_disabled c = false
  <-> mappingHasError c <> Some true
      /\ ~ empty_draft (mappedInputValue c)
      /\ ~ empty_draft (selectedLocalAttributeInputValue c).
Proof.
  split.
  - intros Hd. repeat split; intros H;
      rewrite submit_disabled_true in Hd; try discriminate Hd; tauto.
  - unfold submit_disabled, empty_draft. intros (Hf & Ha & Hb).
    destruct (mappingHasError c) as [[|]|]; try congruence; simpl;
      destruct (mappedInputValue c) as [| |[|? ?]]; try tauto; simpl;
      destruct (selectedLocalAttributeInputValue c) as [| |[|? ?]];
      try tauto; reflexivity.
Qed.

Lemma submit_enabled_iff_witness :
  submit_disabled (component (snd mounted_edit)) = false.
Proof.
  apply (proj2 (submit_enabled_iff (component (snd mounted_edit)))).
  split; [discriminate|].
  split; intros [H | [H | H]]; discriminate H.
Defined.

(** An available list that the caller changed in place is the same array:
    the effect does not run and the candidate list stays as it was. *)
Example rerender_same_array_keeps_candidates :
  copyOfAttrs
    (component
       (snd (step has_scheme letters_only (props_edit, snd mounted_edit)
               (Rerender props_edit_next false))))
  = [attr_a1; attr_a2].
Proof. reflexivity. Qed.
